(* Post-execution block validation of the optimism consensus crate
   (crates/optimism/consensus/src/validation.rs), embedded in Rocq.

   Layout:
   - Module Primitives: the data of reth_primitives the validator reads
     (header, block, receipt, log, bloom, chain spec, consensus error).
   - Section Validation: the three functions of validation.rs.  The
     collaborators of reth_primitives that the file only calls (the
     receipts trie root, the per-item bloom bits of m3_2048, the gas
     breakdown) are Variables of the section, so every theorem holds for
     every implementation of them. *)

From Stdlib Require Import ZArith NArith List Bool Permutation Lia.
Import ListNotations.

Module Primitives.

(** 32-byte digests and 20-byte addresses as unsigned integers. *)
Abbreviation B256 := Z (only parsing).
Abbreviation Address := Z (only parsing).

(** A logs bloom is a 2048-bit vector, as an integer; bitwise OR is [Z.lor]. *)
Abbreviation Bloom := Z (only parsing).
Definition Bloom_ZERO : Bloom := 0%Z.

Abbreviation u64 := N (only parsing).

Record Log := {
  address : Address;
  topics : list B256;
  data : list Z
}.

Inductive TxType := Legacy | Eip2930 | Eip1559 | Eip4844 | Deposit.

(** The optimism receipt. *)
Record Receipt := {
  tx_type : TxType;
  success : bool;
  cumulative_gas_used : u64;
  logs : list Log;
  deposit_nonce : option u64;
  deposit_receipt_version : option u64
}.

Record ReceiptWithBloom := {
  receipt : Receipt;
  bloom : Bloom
}.

(** The header fields the validator reads. *)
Record Header := {
  number : u64;
  timestamp : u64;
  receipts_root : B256;
  logs_bloom : Bloom;
  gas_used : u64
}.

(** [BlockWithSenders] derefs to its block, which derefs to its header:
    [block.timestamp] and [block.gas_used] are header fields. *)
Record BlockWithSenders := {
  header : Header;
  body : list Z;
  senders : list Address
}.

Record GotExpected (T : Type) := {
  got : T;
  expected : T
}.
Arguments got {T} _.
Arguments expected {T} _.

Inductive ConsensusError :=
| BodyReceiptRootDiff (diff : GotExpected B256)
| BodyBloomLogDiff (diff : GotExpected Bloom)
| BlockGasUsed (gas : GotExpected u64) (gas_spent_by_tx : list (u64 * u64)).

(** Rust's [Result]. *)
Inductive Result (T E : Type) :=
| Ok (v : T)
| Err (e : E).
Arguments Ok {T E} v.
Arguments Err {T E} e.

(** The [?] operator. *)
Definition bind {T U E} (r : Result T E) (f : T -> Result U E) : Result U E :=
  match r with
  | Ok v => f v
  | Err e => Err e
  end.

Notation "'try' x <- r ;; f" := (bind r (fun x => f))
  (at level 61, x pattern, r at next level, right associativity).

(** Modelled from the spec: the chain spec, reduced to what the fork gate
    reads, the Byzantium activation height ("is fork F active at block
    height H"), and the chain id passed through opaquely to the trie-root
    calculator. *)
Record ChainSpec := {
  chain_id : u64;
  byzantium_block : u64
}.

(** Modelled from the spec: [ChainSpec::is_byzantium_active_at_block], a
    pure predicate that holds from the activation height on. *)
Definition is_byzantium_active_at_block (cs : ChainSpec) (n : u64) : bool :=
  N.leb (byzantium_block cs) n.

(** [<[T]>::last]. *)
Fixpoint slice_last {A} (l : list A) : option A :=
  match l with
  | [] => None
  | [x] => Some x
  | _ :: l' => slice_last l'
  end.

End Primitives.

Import Primitives.

Section Validation.

(** The three bits [Bloom::m3_2048] sets for a log's address and for one
    topic (keccak-derived, from reth_primitives / alloy). *)
Variable address_bloom_bits : Address -> Bloom.
Variable topic_bloom_bits : B256 -> Bloom.

(** [proofs::calculate_receipt_root_optimism]. *)
Variable calculate_receipt_root_optimism :
  list ReceiptWithBloom -> ChainSpec -> u64 -> B256.

(** [gas_spent_by_transactions]. *)
Variable gas_spent_by_transactions : list Receipt -> list (u64 * u64).

(** Modelled from the spec: [logs_bloom] of reth_primitives; each log
    accrues its address, then every topic, into the bloom. *)
Definition accrue_log (b : Bloom) (log : Log) : Bloom :=
  fold_left (fun b topic => Z.lor b (topic_bloom_bits topic))
    (topics log) (Z.lor b (address_bloom_bits (address log))).

Definition logs_bloom_of (logs : list Log) : Bloom :=
  fold_left accrue_log logs Bloom_ZERO.

(** Modelled from the spec: [impl From<Receipt> for ReceiptWithBloom],
    pairing a receipt with [receipt.bloom_slow()]. *)
Definition into_receipt_with_bloom (r : Receipt) : ReceiptWithBloom :=
  {| receipt := r; bloom := logs_bloom_of (logs r) |}.

(** validation.rs, lines 71-90. *)
Definition compare_receipts_root_and_logs_bloom
    (calculated_receipts_root : B256) (calculated_logs_bloom : Bloom)
    (expected_receipts_root : B256) (expected_logs_bloom : Bloom)
    : Result unit ConsensusError :=
  if negb (Z.eqb calculated_receipts_root expected_receipts_root) then
    Err (BodyReceiptRootDiff
           {| got := calculated_receipts_root; expected := expected_receipts_root |})
  else if negb (Z.eqb calculated_logs_bloom expected_logs_bloom) then
    Err (BodyBloomLogDiff
           {| got := calculated_logs_bloom; expected := expected_logs_bloom |})
  else Ok tt.

(** Line 57: the header log bloom of a list of receipts with bloom. *)
Definition fold_logs_bloom (receipts_with_bloom : list ReceiptWithBloom) : Bloom :=
  fold_left (fun b r => Z.lor b (bloom r)) receipts_with_bloom Bloom_ZERO.

(** validation.rs, lines 44-67. *)
Definition verify_receipts
    (expected_receipts_root : B256) (expected_logs_bloom : Bloom)
    (receipts : list Receipt) (chain_spec : ChainSpec) (timestamp : u64)
    : Result unit ConsensusError :=
  let receipts_with_bloom := map into_receipt_with_bloom receipts in
  let receipts_root :=
    calculate_receipt_root_optimism receipts_with_bloom chain_spec timestamp in
  let logs_bloom := fold_logs_bloom receipts_with_bloom in
  try _ <- compare_receipts_root_and_logs_bloom
             receipts_root logs_bloom expected_receipts_root expected_logs_bloom ;;
  Ok tt.

(** validation.rs, lines 30-40: the gas check that ends
    [validate_block_post_execution]. *)
Definition check_gas_used (block : BlockWithSenders) (receipts : list Receipt)
    : Result unit ConsensusError :=
  let cumulative_gas_used :=
    match slice_last receipts with
    | Some receipt => cumulative_gas_used receipt
    | None => 0%N
    end in
  if negb (N.eqb (gas_used (header block)) cumulative_gas_used) then
    Err (BlockGasUsed
           {| got := cumulative_gas_used; expected := gas_used (header block) |}
           (gas_spent_by_transactions receipts))
  else Ok tt.

(** validation.rs, lines 11-41. *)
Definition validate_block_post_execution
    (block : BlockWithSenders) (chain_spec : ChainSpec) (receipts : list Receipt)
    : Result unit ConsensusError :=
  try _ <- (if is_byzantium_active_at_block chain_spec (number (header block)) then
              verify_receipts
                (receipts_root (header block)) (logs_bloom (header block))
                receipts chain_spec (timestamp (header block))
            else Ok tt) ;;
  check_gas_used block receipts.

End Validation.

(** Concrete collaborators, used to run the validator on explicit blocks. *)
Module Concrete.

(** One bit per item, as a stand-in for the three keccak bits. *)
Definition bits (x : Z) : Bloom := Z.shiftl 1 (x mod 2048).

(** A root that commits to the number of receipts, their blooms and the
    timestamp. *)
Definition root (rs : list ReceiptWithBloom) (cs : ChainSpec) (ts : u64) : B256 :=
  (Z.of_nat (length rs) + fold_logs_bloom rs + Z.of_N ts)%Z.

(** Index and cumulative gas of every receipt. *)
Definition gas_spent (rs : list Receipt) : list (u64 * u64) :=
  combine (map N.of_nat (seq 0 (length rs))) (map cumulative_gas_used rs).

Definition receipt_of (g : u64) (ls : list Log) : Receipt :=
  {| tx_type := Eip1559; success := true; cumulative_gas_used := g; logs := ls;
     deposit_nonce := None; deposit_receipt_version := None |}.

Definition log_of (a : Address) (ts : list B256) : Log :=
  {| address := a; topics := ts; data := [] |}.

Definition block_of (n ts : u64) (rr : B256) (lb : Bloom) (g : u64) : BlockWithSenders :=
  {| header := {| number := n; timestamp := ts; receipts_root := rr;
                  logs_bloom := lb; gas_used := g |};
     body := []; senders := [] |}.

Definition chain : ChainSpec := {| chain_id := 10%N; byzantium_block := 5%N |}.

(** Two receipts, cumulative gas 21000 and 42000; the first one logs
    address 3 with topic 7, so the aggregate bloom is 136 and the root 138
    at timestamp 0. *)
Definition rs2 : list Receipt :=
  [receipt_of 21000 [log_of 3 [7%Z]]; receipt_of 42000 []].

Definition validate := validate_block_post_execution bits bits root gas_spent.
Definition verify := verify_receipts bits bits root.

End Concrete.

Section Theorems.

Variable address_bloom_bits : Address -> Bloom.
Variable topic_bloom_bits : B256 -> Bloom.
Variable calculate_receipt_root_optimism :
  list ReceiptWithBloom -> ChainSpec -> u64 -> B256.
Variable gas_spent_by_transactions : list Receipt -> list (u64 * u64).

Local Abbreviation into := (into_receipt_with_bloom address_bloom_bits topic_bloom_bits).
Local Abbreviation verify :=
  (verify_receipts address_bloom_bits topic_bloom_bits calculate_receipt_root_optimism).
Local Abbreviation check_gas := (check_gas_used gas_spent_by_transactions).
Local Abbreviation validate :=
  (validate_block_post_execution address_bloom_bits topic_bloom_bits
     calculate_receipt_root_optimism gas_spent_by_transactions).

(** The receipts root the validator computes for a list of receipts. *)
Local Abbreviation computed_root receipts cs ts :=
  (calculate_receipt_root_optimism (map into receipts) cs ts).
(** The aggregate logs bloom the validator computes. *)
Local Abbreviation computed_bloom receipts := (fold_logs_bloom (map into receipts)).

Lemma verify_receipts_eq root bl receipts cs ts :
  verify root bl receipts cs ts =
  compare_receipts_root_and_logs_bloom
    (computed_root receipts cs ts) (computed_bloom receipts) root bl.
Proof.
  unfold verify_receipts, bind.
  destruct compare_receipts_root_and_logs_bloom as [[]|]; reflexivity.
Qed.

Lemma validate_post_fork cs block receipts :
  is_byzantium_active_at_block cs (number (header block)) = true ->
  validate block cs receipts =
  bind (verify (receipts_root (header block)) (logs_bloom (header block))
          receipts cs (timestamp (header block)))
       (fun _ => check_gas block receipts).
Proof. intros H. unfold validate_block_post_execution. rewrite H. reflexivity. Qed.

Lemma validate_pre_fork cs block receipts :
  is_byzantium_active_at_block cs (number (header block)) = false ->
  validate block cs receipts = check_gas block receipts.
Proof. intros H. unfold validate_block_post_execution. rewrite H. reflexivity. Qed.

Lemma compare_root_diff cr cb er eb :
  cr <> er ->
  compare_receipts_root_and_logs_bloom cr cb er eb =
  Err (BodyReceiptRootDiff {| got := cr; expected := er |}).
Proof.
  intros H. unfold compare_receipts_root_and_logs_bloom.
  apply Z.eqb_neq in H. rewrite H. reflexivity.
Qed.

Lemma compare_bloom_diff cr cb er eb :
  cr = er -> cb <> eb ->
  compare_receipts_root_and_logs_bloom cr cb er eb =
  Err (BodyBloomLogDiff {| got := cb; expected := eb |}).
Proof.
  intros -> H. unfold compare_receipts_root_and_logs_bloom.
  rewrite Z.eqb_refl. apply Z.eqb_neq in H. rewrite H. reflexivity.
Qed.

Lemma compare_ok cr cb er eb :
  compare_receipts_root_and_logs_bloom cr cb er eb = Ok tt <-> cr = er /\ cb = eb.
Proof.
  unfold compare_receipts_root_and_logs_bloom.
  destruct (Z.eqb_spec cr er); destruct (Z.eqb_spec cb eb); simpl;
    split; intros H; try discriminate; try (destruct H; contradiction); auto.
Qed.

Lemma check_gas_not_body_error block receipts d :
  check_gas block receipts <> Err (BodyReceiptRootDiff d) /\
  check_gas block receipts <> Err (BodyBloomLogDiff d).
Proof.
  unfold check_gas_used. destruct negb; split; discriminate.
Qed.

Lemma slice_last_app {A} (l : list A) (x : A) : slice_last (l ++ [x]) = Some x.
Proof.
  induction l as [|a l IH]; [reflexivity|].
  simpl. rewrite IH. destruct (l ++ [x]) eqn:E.
  - destruct l; discriminate.
  - reflexivity.
Qed.

Lemma check_gas_ok block receipts :
  check_gas block receipts = Ok tt <->
  gas_used (header block) =
  match slice_last receipts with Some r => cumulative_gas_used r | None => 0%N end.
Proof.
  unfold check_gas_used; cbv zeta.
  destruct (slice_last receipts) as [r|];
    match goal with |- context [N.eqb ?a ?b] => destruct (N.eqb_spec a b) end;
    simpl; split; intros H; try discriminate; auto; contradiction.
Qed.

Lemma validate_after_gate cs block receipts :
  is_byzantium_active_at_block cs (number (header block)) = false \/
  verify (receipts_root (header block)) (logs_bloom (header block))
    receipts cs (timestamp (header block)) = Ok tt ->
  validate block cs receipts = check_gas block receipts.
Proof.
  intros [H|H].
  - apply validate_pre_fork, H.
  - unfold validate_block_post_execution.
    destruct is_byzantium_active_at_block; [rewrite H|]; reflexivity.
Qed.

Lemma fold_lor_acc (l : list ReceiptWithBloom) (a : Bloom) :
  fold_left (fun b r => Z.lor b (bloom r)) l a =
  Z.lor a (fold_right (fun r acc => Z.lor (bloom r) acc) 0%Z l).
Proof.
  revert a; induction l as [|x l IH]; intros a; simpl.
  - rewrite Z.lor_0_r. reflexivity.
  - rewrite IH, Z.lor_assoc. reflexivity.
Qed.

Lemma fold_left_map_fn {A B C} (f : C -> B -> C) (g : A -> B) (l : list A) (a : C) :
  fold_left f (map g l) a = fold_left (fun c x => f c (g x)) l a.
Proof.
  revert a; induction l as [|x l IH]; intros a; simpl; [reflexivity|apply IH].
Qed.

Lemma fold_right_lor_perm (l l' : list ReceiptWithBloom) :
  Permutation l l' ->
  fold_right (fun r acc => Z.lor (bloom r) acc) 0%Z l =
  fold_right (fun r acc => Z.lor (bloom r) acc) 0%Z l'.
Proof.
  induction 1 as [| x l l' _ IH | x y l | l l' l'' _ IH1 _ IH2]; simpl.
  - reflexivity.
  - rewrite IH. reflexivity.
  - rewrite !Z.lor_assoc, (Z.lor_comm (bloom y)). reflexivity.
  - congruence.
Qed.

Ltac post_fork H :=
  rewrite validate_post_fork
    by (unfold is_byzantium_active_at_block; apply N.leb_le; exact H);
  rewrite verify_receipts_eq; unfold compare_receipts_root_and_logs_bloom.

Ltac case_eqb :=
  repeat match goal with
         | |- context [Z.eqb ?a ?b] => destruct (Z.eqb_spec a b)
         end.

(** C1: below the Byzantium activation height [validate_block_post_execution]
    skips the receipts root and logs bloom verification: its outcome is the
    outcome of the gas check alone, and a block that differs only in its
    declared receipts root, logs bloom (or anything but its number and gas
    used) gets the same outcome. *)
Theorem pre_fork_only_gas_checked cs block receipts
    (Hpre : (number (header block) < byzantium_block cs)%N) :
  validate block cs receipts = check_gas block receipts /\
  forall block',
    number (header block') = number (header block) ->
    gas_used (header block') = gas_used (header block) ->
    validate block' cs receipts = validate block cs receipts.
Proof.
  assert (Hg : forall b, number (header b) = number (header block) ->
                         validate b cs receipts = check_gas b receipts).
  { intros b Hb. apply validate_pre_fork.
    unfold is_byzantium_active_at_block. rewrite Hb. apply N.leb_gt, Hpre. }
  split; [apply Hg; reflexivity|].
  intros b' Hn Hgas. rewrite (Hg b' Hn), (Hg block eq_refl).
  unfold check_gas_used. rewrite Hgas. reflexivity.
Qed.

(** C2 (amended): for a post-fork block, a computed receipts root that
    differs from the declared one yields [BodyReceiptRootDiff] with both
    values; when the roots agree, a computed logs bloom that differs from
    the declared one yields [BodyBloomLogDiff] with both values; and the
    validator returns [BodyReceiptRootDiff] only on a root mismatch and
    [BodyBloomLogDiff] only on a bloom mismatch. *)
Theorem post_fork_mismatch_variants cs block receipts
    (Hpost : (byzantium_block cs <= number (header block))%N) :
  (computed_root receipts cs (timestamp (header block)) <> receipts_root (header block) ->
   validate block cs receipts =
   Err (BodyReceiptRootDiff
          {| got := computed_root receipts cs (timestamp (header block));
             expected := receipts_root (header block) |})) /\
  (computed_root receipts cs (timestamp (header block)) = receipts_root (header block) ->
   computed_bloom receipts <> logs_bloom (header block) ->
   validate block cs receipts =
   Err (BodyBloomLogDiff
          {| got := computed_bloom receipts; expected := logs_bloom (header block) |})) /\
  (forall d, validate block cs receipts = Err (BodyReceiptRootDiff d) ->
   computed_root receipts cs (timestamp (header block)) <> receipts_root (header block)) /\
  (forall d, validate block cs receipts = Err (BodyBloomLogDiff d) ->
   computed_bloom receipts <> logs_bloom (header block)).
Proof.
  post_fork Hpost. case_eqb; simpl; repeat split; intros; try congruence;
    match goal with
    | H : check_gas _ _ = Err ?e |- _ =>
        destruct (check_gas_not_body_error block receipts (match e with
          | BodyReceiptRootDiff d | BodyBloomLogDiff d => d
          | BlockGasUsed g _ => {| got := 0%Z; expected := 0%Z |} end));
        simpl in *; contradiction
    end.
Qed.

(** C3 (amended): with no receipts the total gas used is 0: the gas check
    fails, with [BlockGasUsed] got 0, exactly when the header declares a
    nonzero gas used; so [validate_block_post_execution] fails exactly when
    the declared gas used is nonzero whenever the receipts root and bloom
    step is skipped (pre-fork) or passes. *)
Theorem empty_receipts_gas cs block :
  check_gas block [] =
  (if N.eqb (gas_used (header block)) 0 then Ok tt
   else Err (BlockGasUsed {| got := 0%N; expected := gas_used (header block) |}
               (gas_spent_by_transactions []))) /\
  (check_gas block [] = Ok tt <-> gas_used (header block) = 0%N) /\
  ((number (header block) < byzantium_block cs)%N \/
   verify (receipts_root (header block)) (logs_bloom (header block))
     [] cs (timestamp (header block)) = Ok tt ->
   (validate block cs [] = Ok tt <-> gas_used (header block) = 0%N)).
Proof.
  split; [|split].
  - unfold check_gas_used. simpl. destruct N.eqb; reflexivity.
  - rewrite check_gas_ok. reflexivity.
  - intros Hgate. rewrite validate_after_gate, check_gas_ok; [reflexivity|].
    destruct Hgate as [H|H]; [left|right; exact H].
    unfold is_byzantium_active_at_block. apply N.leb_gt, H.
Qed.

(** C4: for a non-empty list of receipts the gas check passes exactly when
    the last receipt's cumulative gas used equals the header's gas used,
    whatever the earlier receipts are. *)
Theorem gas_check_last_receipt block rs r :
  (check_gas_used gas_spent_by_transactions block (rs ++ [r]) = Ok tt <->
   cumulative_gas_used r = gas_used (header block)) /\
  (forall rs', check_gas_used gas_spent_by_transactions block (rs' ++ [r]) = Ok tt <->
               check_gas_used gas_spent_by_transactions block (rs ++ [r]) = Ok tt).
Proof.
  assert (E : forall l, check_gas block (l ++ [r]) = Ok tt <->
                        cumulative_gas_used r = gas_used (header block)).
  { intros l. rewrite check_gas_ok, slice_last_app. split; intros H; symmetry; exact H. }
  split; [apply E|]. intros rs'. rewrite !E. reflexivity.
Qed.

(** C5: for a post-fork block whose receipts root or logs bloom check fails,
    the validator returns that error, a [BodyReceiptRootDiff] or a
    [BodyBloomLogDiff], without running the gas check. *)
Theorem root_bloom_failure_short_circuits cs block receipts e
    (Hpost : (byzantium_block cs <= number (header block))%N)
    (Hfail : verify (receipts_root (header block)) (logs_bloom (header block))
               receipts cs (timestamp (header block)) = Err e) :
  validate block cs receipts = Err e /\
  ((exists d, e = BodyReceiptRootDiff d) \/ (exists d, e = BodyBloomLogDiff d)).
Proof.
  split.
  - rewrite validate_post_fork, Hfail; [reflexivity|].
    unfold is_byzantium_active_at_block. apply N.leb_le, Hpost.
  - rewrite verify_receipts_eq in Hfail.
    unfold compare_receipts_root_and_logs_bloom in Hfail.
    revert Hfail; case_eqb; simpl; intros Hfail; inversion Hfail; eauto.
Qed.

(** C6: the aggregate logs bloom is the fold, in receipt order from the
    zero bloom, of the per-receipt blooms under bitwise OR, and permuting
    the receipts leaves it unchanged. *)
Theorem aggregate_bloom_fold_permutation rs rs' (Hperm : Permutation rs rs') :
  computed_bloom rs =
  fold_left Z.lor
    (map (fun r => logs_bloom_of address_bloom_bits topic_bloom_bits (logs r)) rs)
    Bloom_ZERO /\
  computed_bloom rs' = computed_bloom rs.
Proof.
  split.
  - unfold fold_logs_bloom. rewrite !fold_left_map_fn. reflexivity.
  - unfold fold_logs_bloom. rewrite !fold_lor_acc. f_equal.
    apply fold_right_lor_perm. symmetry. apply Permutation_map, Hperm.
Qed.

(** C7: the outcome of [validate_block_post_execution] is determined by the
    chain spec, the header and the ordered receipts: blocks with the same
    header get the same outcome; and post-fork the receipts root it checks
    is the trie-root calculator applied to the receipts with bloom, the
    chain spec and the block timestamp. *)
Theorem validate_deterministic cs b1 b2 receipts (Hh : header b1 = header b2) :
  validate b1 cs receipts = validate b2 cs receipts /\
  (is_byzantium_active_at_block cs (number (header b1)) = true ->
   validate b1 cs receipts =
   bind (compare_receipts_root_and_logs_bloom
           (computed_root receipts cs (timestamp (header b1)))
           (computed_bloom receipts)
           (receipts_root (header b1)) (logs_bloom (header b1)))
        (fun _ => check_gas b1 receipts)).
Proof.
  split.
  - unfold validate_block_post_execution, check_gas_used. rewrite Hh. reflexivity.
  - intros H. rewrite validate_post_fork, verify_receipts_eq by exact H. reflexivity.
Qed.

(** C8: with two receipts of cumulative gas used 21000 and 42000, the gas
    check passes for a declared gas used of 42000 and, for 42001, fails with
    [BlockGasUsed] got 42000, expected 42001 and the per-transaction gas
    breakdown of the receipts; the validator returns the same whenever the
    receipts root and bloom step is skipped (pre-fork) or passes. *)
Theorem two_receipts_gas_scenario cs block r1 r2
    (H1 : cumulative_gas_used r1 = 21000%N)
    (H2 : cumulative_gas_used r2 = 42000%N) :
  (gas_used (header block) = 42000%N -> check_gas block [r1; r2] = Ok tt) /\
  (gas_used (header block) = 42001%N ->
   check_gas block [r1; r2] =
   Err (BlockGasUsed {| got := 42000%N; expected := 42001%N |}
          (gas_spent_by_transactions [r1; r2]))) /\
  (is_byzantium_active_at_block cs (number (header block)) = false \/
   verify (receipts_root (header block)) (logs_bloom (header block))
     [r1; r2] cs (timestamp (header block)) = Ok tt ->
   (gas_used (header block) = 42000%N -> validate block cs [r1; r2] = Ok tt) /\
   (gas_used (header block) = 42001%N ->
    validate block cs [r1; r2] =
    Err (BlockGasUsed {| got := 42000%N; expected := 42001%N |}
           (gas_spent_by_transactions [r1; r2])))).
Proof.
  assert (G : forall g, gas_used (header block) = g ->
              check_gas block [r1; r2] =
              if N.eqb g 42000 then Ok tt
              else Err (BlockGasUsed {| got := 42000%N; expected := g |}
                          (gas_spent_by_transactions [r1; r2]))).
  { intros g Hg. unfold check_gas_used. simpl. rewrite H2, Hg.
    destruct N.eqb; reflexivity. }
  split; [|split].
  - intros Hg. rewrite (G _ Hg). reflexivity.
  - intros Hg. rewrite (G _ Hg). reflexivity.
  - intros Hgate. rewrite validate_after_gate by exact Hgate.
    split; intros Hg; rewrite (G _ Hg); reflexivity.
Qed.

(** C9: the receipts root is compared before the logs bloom: a post-fork
    block whose computed root and computed bloom both differ from the
    declared ones gets [BodyReceiptRootDiff], never [BodyBloomLogDiff]. *)
Theorem root_checked_before_bloom cs block receipts
    (Hpost : (byzantium_block cs <= number (header block))%N)
    (Hroot : computed_root receipts cs (timestamp (header block)) <>
             receipts_root (header block))
    (Hbloom : computed_bloom receipts <> logs_bloom (header block)) :
  validate block cs receipts =
  Err (BodyReceiptRootDiff
         {| got := computed_root receipts cs (timestamp (header block));
            expected := receipts_root (header block) |}) /\
  (forall d, validate block cs receipts <> Err (BodyBloomLogDiff d)).
Proof.
  assert (E : validate block cs receipts =
              Err (BodyReceiptRootDiff
                     {| got := computed_root receipts cs (timestamp (header block));
                        expected := receipts_root (header block) |})).
  { post_fork Hpost. case_eqb; try contradiction; reflexivity. }
  split; [exact E|]. intros d. rewrite E. discriminate.
Qed.

(** C10: with no receipts the aggregate logs bloom is the zero bloom; for a
    post-fork block with no receipts whose receipts root matches, the
    receipts verification passes exactly when the declared bloom is zero,
    and a nonzero declared bloom yields [BodyBloomLogDiff] got zero. *)
Theorem empty_receipts_zero_bloom cs block
    (Hpost : (byzantium_block cs <= number (header block))%N)
    (Hroot : computed_root [] cs (timestamp (header block)) =
             receipts_root (header block)) :
  computed_bloom [] = Bloom_ZERO /\
  (verify (receipts_root (header block)) (logs_bloom (header block))
     [] cs (timestamp (header block)) = Ok tt <->
   logs_bloom (header block) = Bloom_ZERO) /\
  (logs_bloom (header block) <> Bloom_ZERO ->
   validate block cs [] =
   Err (BodyBloomLogDiff {| got := Bloom_ZERO; expected := logs_bloom (header block) |})).
Proof.
  split; [reflexivity|split].
  - rewrite verify_receipts_eq, compare_ok. simpl.
    split; [intros [_ H]; symmetry; exact H|intros H; split; [exact Hroot|symmetry; exact H]].
  - intros Hb. post_fork Hpost. rewrite Hroot, Z.eqb_refl.
    case_eqb; simpl; try reflexivity.
    exfalso. apply Hb. symmetry. assumption.
Qed.

End Theorems.

Section Extras.

Variable address_bloom_bits : Address -> Bloom.
Variable topic_bloom_bits : B256 -> Bloom.
Variable calculate_receipt_root_optimism :
  list ReceiptWithBloom -> ChainSpec -> u64 -> B256.
Variable gas_spent_by_transactions : list Receipt -> list (u64 * u64).

Ltac case_eqb :=
  repeat match goal with
         | |- context [Z.eqb ?a ?b] => destruct (Z.eqb_spec a b)
         end.

Lemma lor_bounded (a b n : Z) :
  (0 <= n)%Z -> (0 <= a < 2 ^ n)%Z -> (0 <= b < 2 ^ n)%Z ->
  (0 <= Z.lor a b < 2 ^ n)%Z.
Proof.
  intros Hn Ha Hb.
  assert (Hl : (0 <= Z.lor a b)%Z) by (apply Z.lor_nonneg; lia).
  assert (E : (Z.lor a b mod 2 ^ n)%Z = Z.lor a b).
  { apply Z.bits_inj'; intros m Hm.
    destruct (Z.lt_ge_cases m n).
    - rewrite Z.mod_pow2_bits_low by lia. reflexivity.
    - rewrite Z.mod_pow2_bits_high by lia. rewrite Z.lor_spec.
      rewrite <- (Z.mod_small a (2 ^ n)), <- (Z.mod_small b (2 ^ n)) by lia.
      rewrite !Z.mod_pow2_bits_high by lia. reflexivity. }
  split; [exact Hl|]. rewrite <- E. apply Z.mod_pos_bound.
  apply Z.pow_pos_nonneg; lia.
Qed.

Lemma fold_logs_bloom_testbit_acc (l : list ReceiptWithBloom) (a : Bloom) (i : Z) :
  Z.testbit (fold_left (fun b r => Z.lor b (bloom r)) l a) i =
  Z.testbit a i || existsb (fun r => Z.testbit (bloom r) i) l.
Proof.
  revert a; induction l as [|x l IH]; intros a; simpl.
  - rewrite orb_false_r. reflexivity.
  - rewrite IH, Z.lor_spec, orb_assoc. reflexivity.
Qed.

(** Validation succeeds exactly when the gas check holds (header gas used
    equal to the last receipt's cumulative gas used, 0 without receipts)
    and, from the Byzantium block on, the computed receipts root and logs
    bloom equal the declared ones. *)
Theorem validate_ok_iff cs block receipts :
  validate_block_post_execution address_bloom_bits topic_bloom_bits
    calculate_receipt_root_optimism gas_spent_by_transactions block cs receipts = Ok tt <->
  (is_byzantium_active_at_block cs (number (header block)) = true ->
   calculate_receipt_root_optimism
     (map (into_receipt_with_bloom address_bloom_bits topic_bloom_bits) receipts)
     cs (timestamp (header block)) = receipts_root (header block) /\
   fold_logs_bloom (map (into_receipt_with_bloom address_bloom_bits topic_bloom_bits) receipts)
   = logs_bloom (header block)) /\
  gas_used (header block) =
  match slice_last receipts with Some r => cumulative_gas_used r | None => 0%N end.
Proof.
  unfold validate_block_post_execution.
  destruct (is_byzantium_active_at_block cs (number (header block))) eqn:G.
  - rewrite verify_receipts_eq.
    destruct (compare_receipts_root_and_logs_bloom _ _ _ _) as [[]|e] eqn:C; simpl.
    + apply compare_ok in C. rewrite check_gas_ok. tauto.
    + split; [discriminate|]. intros [H _].
      destruct (H eq_refl) as [H1 H2].
      pose proof (proj2 (compare_ok _ _ _ _) (conj H1 H2)) as C'.
      congruence.
  - simpl. rewrite check_gas_ok.
    split; [intros H; split; [discriminate|exact H]|intros [_ H]; exact H].
Qed.

(** [verify_receipts] succeeds exactly when the computed receipts root and
    the computed logs bloom equal the expected ones. *)
Theorem verify_receipts_ok_iff root bl receipts cs ts :
  verify_receipts address_bloom_bits topic_bloom_bits calculate_receipt_root_optimism
    root bl receipts cs ts = Ok tt <->
  calculate_receipt_root_optimism
    (map (into_receipt_with_bloom address_bloom_bits topic_bloom_bits) receipts) cs ts = root /\
  fold_logs_bloom (map (into_receipt_with_bloom address_bloom_bits topic_bloom_bits) receipts) = bl.
Proof. rewrite verify_receipts_eq. apply compare_ok. Qed.

(** Every error the validator returns reports two different values: the
    got and expected of a root, bloom or gas mismatch never coincide. *)
Theorem validate_error_values_differ cs block receipts e
    (H : validate_block_post_execution address_bloom_bits topic_bloom_bits
           calculate_receipt_root_optimism gas_spent_by_transactions
           block cs receipts = Err e) :
  match e with
  | BodyReceiptRootDiff d => got d <> expected d
  | BodyBloomLogDiff d => got d <> expected d
  | BlockGasUsed g _ => got g <> expected g
  end.
Proof.
  revert H. unfold validate_block_post_execution.
  destruct is_byzantium_active_at_block;
    [rewrite verify_receipts_eq; unfold compare_receipts_root_and_logs_bloom;
     case_eqb; simpl|simpl];
    try (unfold check_gas_used; cbv zeta;
         match goal with |- context [N.eqb ?a ?b] => destruct (N.eqb_spec a b) end);
    simpl; intros H; inversion H; subst; simpl; auto.
Qed.

(** A gas mismatch is reported only once the receipts root and bloom step
    has passed (or is skipped before Byzantium); it carries the last
    receipt's cumulative gas used as got, the header's gas used as
    expected, and the gas breakdown of all the receipts. *)
Theorem gas_error_after_receipts_check cs block receipts g bd
    (H : validate_block_post_execution address_bloom_bits topic_bloom_bits
           calculate_receipt_root_optimism gas_spent_by_transactions
           block cs receipts = Err (BlockGasUsed g bd)) :
  (is_byzantium_active_at_block cs (number (header block)) = true ->
   verify_receipts address_bloom_bits topic_bloom_bits calculate_receipt_root_optimism
     (receipts_root (header block)) (logs_bloom (header block))
     receipts cs (timestamp (header block)) = Ok tt) /\
  got g = match slice_last receipts with Some r => cumulative_gas_used r | None => 0%N end /\
  expected g = gas_used (header block) /\
  bd = gas_spent_by_transactions receipts.
Proof.
  revert H. unfold validate_block_post_execution.
  destruct is_byzantium_active_at_block.
  - destruct (verify_receipts _ _ _ _ _ _ _ _) as [[]|e] eqn:V; simpl.
    + unfold check_gas_used; cbv zeta. destruct negb; [|intros H'; discriminate H'].
      intros H; inversion H; subst; simpl; auto.
    + intros H; inversion H; subst. exfalso.
      rewrite verify_receipts_eq in V. unfold compare_receipts_root_and_logs_bloom in V.
      revert V; case_eqb; simpl; intros V; discriminate V.
  - simpl. unfold check_gas_used; cbv zeta. destruct negb; [|intros H'; discriminate H'].
    intros H; inversion H; subst; simpl. repeat split; auto. discriminate.
Qed.

(** Bit [i] of the aggregate logs bloom is set exactly when bit [i] of the
    bloom of some receipt is set. *)
Theorem fold_logs_bloom_testbit (l : list ReceiptWithBloom) (i : Z) :
  Z.testbit (fold_logs_bloom l) i = existsb (fun r => Z.testbit (bloom r) i) l.
Proof.
  unfold fold_logs_bloom. rewrite fold_logs_bloom_testbit_acc.
  rewrite Z.testbit_0_l. reflexivity.
Qed.

(** The aggregate logs bloom of a concatenation is the OR of the
    aggregate blooms of the parts. *)
Theorem fold_logs_bloom_app (l1 l2 : list ReceiptWithBloom) :
  fold_logs_bloom (l1 ++ l2) = Z.lor (fold_logs_bloom l1) (fold_logs_bloom l2).
Proof.
  unfold fold_logs_bloom. rewrite fold_left_app, !fold_lor_acc.
  unfold Bloom_ZERO. rewrite Z.lor_0_l. reflexivity.
Qed.

(** When every receipt's bloom is a 2048-bit value, so is the aggregate
    logs bloom. *)
Theorem fold_logs_bloom_bounded (l : list ReceiptWithBloom)
    (H : forall r, In r l -> (0 <= bloom r < 2 ^ 2048)%Z) :
  (0 <= fold_logs_bloom l < 2 ^ 2048)%Z.
Proof.
  unfold fold_logs_bloom.
  assert (A : (0 <= Bloom_ZERO < 2 ^ 2048)%Z) by (unfold Bloom_ZERO; lia).
  revert A H. generalize Bloom_ZERO.
  induction l as [|x l IH]; intros a A H; simpl; [exact A|].
  apply IH.
  - apply lor_bounded; [lia|exact A|apply H; left; reflexivity].
  - intros r Hr. apply H. right. exact Hr.
Qed.

End Extras.

Import Concrete.

Lemma pre_fork_only_gas_checked_witness :
  (number (header (block_of 3 0 999 999 42000)) < byzantium_block chain)%N /\
  validate (block_of 3 0 999 999 42000) chain rs2 = Ok tt /\
  validate (block_of 3 0 1 1 42000) chain rs2 =
  validate (block_of 3 0 999 999 42000) chain rs2.
Proof.
  assert (H : (number (header (block_of 3 0 999 999 42000)) < byzantium_block chain)%N)
    by (vm_compute; reflexivity).
  destruct (pre_fork_only_gas_checked bits bits root gas_spent chain
              (block_of 3 0 999 999 42000) rs2 H) as [E F].
  split; [exact H|split].
  - unfold validate. rewrite E. vm_compute. reflexivity.
  - apply F; reflexivity.
Defined.

Lemma post_fork_mismatch_variants_witness :
  (byzantium_block chain <= number (header (block_of 6 0 1 136 42000)))%N /\
  validate (block_of 6 0 1 136 42000) chain rs2 =
  Err (BodyReceiptRootDiff {| got := 138%Z; expected := 1%Z |}).
Proof.
  assert (H : (byzantium_block chain <= number (header (block_of 6 0 1 136 42000)))%N)
    by (vm_compute; discriminate).
  split; [exact H|].
  apply (proj1 (post_fork_mismatch_variants bits bits root gas_spent chain
                  (block_of 6 0 1 136 42000) rs2 H)).
  vm_compute. discriminate.
Defined.

(** C2 fails as stated: this post-fork block's computed logs bloom (136)
    differs from the declared one (0), yet the validator reports the root
    mismatch and not a logs bloom mismatch. *)
Lemma bloom_mismatch_reported_as_root_mismatch :
  fold_logs_bloom (map (into_receipt_with_bloom bits bits) rs2) <>
  logs_bloom (header (block_of 6 0 1 0 42000)) /\
  validate (block_of 6 0 1 0 42000) chain rs2 =
  Err (BodyReceiptRootDiff {| got := 138%Z; expected := 1%Z |}) /\
  (forall d, validate (block_of 6 0 1 0 42000) chain rs2 <> Err (BodyBloomLogDiff d)).
Proof.
  split; [vm_compute; discriminate|split; [vm_compute; reflexivity|]].
  intros d. vm_compute. discriminate.
Qed.

(** C3 fails as stated: a post-fork block with no receipts that declares
    zero gas used still fails validation, on its receipts root. *)
Lemma empty_receipts_zero_gas_fails_on_root :
  gas_used (header (block_of 6 0 1 0 0)) = 0%N /\
  validate (block_of 6 0 1 0 0) chain [] =
  Err (BodyReceiptRootDiff {| got := 0%Z; expected := 1%Z |}).
Proof. split; vm_compute; reflexivity. Qed.

Lemma empty_receipts_gas_witness :
  ((number (header (block_of 3 0 1 1 0)) < byzantium_block chain)%N \/
   verify (receipts_root (header (block_of 3 0 1 1 0)))
     (logs_bloom (header (block_of 3 0 1 1 0))) [] chain 0 = Ok tt) /\
  validate (block_of 3 0 1 1 0) chain [] = Ok tt.
Proof.
  assert (H : (number (header (block_of 3 0 1 1 0)) < byzantium_block chain)%N \/
              verify (receipts_root (header (block_of 3 0 1 1 0)))
                (logs_bloom (header (block_of 3 0 1 1 0))) [] chain 0 = Ok tt)
    by (left; vm_compute; reflexivity).
  split; [exact H|].
  apply (proj2 (proj2 (proj2 (empty_receipts_gas bits bits root gas_spent chain
                                (block_of 3 0 1 1 0))) H)).
  reflexivity.
Defined.

Lemma root_bloom_failure_short_circuits_witness :
  verify 1 0 rs2 chain 0 = Err (BodyReceiptRootDiff {| got := 138%Z; expected := 1%Z |}) /\
  validate (block_of 6 0 1 0 7) chain rs2 =
  Err (BodyReceiptRootDiff {| got := 138%Z; expected := 1%Z |}).
Proof.
  assert (H : verify 1 0 rs2 chain 0 =
              Err (BodyReceiptRootDiff {| got := 138%Z; expected := 1%Z |}))
    by (vm_compute; reflexivity).
  split; [exact H|].
  apply (proj1 (root_bloom_failure_short_circuits bits bits root gas_spent chain
                  (block_of 6 0 1 0 7) rs2 _ ltac:(vm_compute; discriminate) H)).
Defined.

Lemma aggregate_bloom_fold_permutation_witness :
  Permutation rs2 (rev rs2) /\
  fold_logs_bloom (map (into_receipt_with_bloom bits bits) (rev rs2)) = 136%Z.
Proof.
  assert (H : Permutation rs2 (rev rs2)) by apply Permutation_rev.
  split; [exact H|].
  rewrite (proj2 (aggregate_bloom_fold_permutation bits bits rs2 (rev rs2) H)).
  vm_compute. reflexivity.
Defined.

Lemma validate_deterministic_witness :
  header (block_of 6 0 138 136 42000) =
  header {| header := header (block_of 6 0 138 136 42000); body := [1%Z];
            senders := [5%Z] |} /\
  validate {| header := header (block_of 6 0 138 136 42000); body := [1%Z];
              senders := [5%Z] |} chain rs2 = Ok tt.
Proof.
  split; [reflexivity|].
  unfold validate.
  rewrite <- (proj1 (validate_deterministic bits bits root gas_spent chain
                       (block_of 6 0 138 136 42000)
                       {| header := header (block_of 6 0 138 136 42000); body := [1%Z];
                          senders := [5%Z] |} rs2 eq_refl)).
  vm_compute. reflexivity.
Defined.

Lemma two_receipts_gas_scenario_witness :
  cumulative_gas_used (receipt_of 21000 [log_of 3 [7%Z]]) = 21000%N /\
  cumulative_gas_used (receipt_of 42000 []) = 42000%N /\
  validate (block_of 3 0 0 0 42001) chain rs2 =
  Err (BlockGasUsed {| got := 42000%N; expected := 42001%N |} [(0, 21000); (1, 42000)]%N).
Proof.
  split; [reflexivity|split; [reflexivity|]].
  destruct (two_receipts_gas_scenario bits bits root gas_spent chain
              (block_of 3 0 0 0 42001) (receipt_of 21000 [log_of 3 [7%Z]])
              (receipt_of 42000 []) eq_refl eq_refl) as [_ [_ G]].
  apply (proj2 (G (or_introl eq_refl)) eq_refl).
Defined.

Lemma root_checked_before_bloom_witness :
  (138 <> 1 /\ 136 <> 0)%Z /\
  validate (block_of 6 0 1 0 42000) chain rs2 =
  Err (BodyReceiptRootDiff {| got := 138%Z; expected := 1%Z |}).
Proof.
  split; [split; discriminate|].
  apply (proj1 (root_checked_before_bloom bits bits root gas_spent chain
                  (block_of 6 0 1 0 42000) rs2
                  ltac:(vm_compute; discriminate)
                  ltac:(vm_compute; discriminate)
                  ltac:(vm_compute; discriminate))).
Defined.

Lemma empty_receipts_zero_bloom_witness :
  root [] chain 0 = 0%Z /\
  validate (block_of 6 0 0 4 0) chain [] =
  Err (BodyBloomLogDiff {| got := Bloom_ZERO; expected := 4%Z |}).
Proof.
  split; [reflexivity|].
  apply (proj2 (proj2 (empty_receipts_zero_bloom bits bits root gas_spent chain
                         (block_of 6 0 0 4 0)
                         ltac:(vm_compute; discriminate) eq_refl))).
  discriminate.
Defined.

Lemma validate_ok_iff_witness :
  validate_block_post_execution bits bits root gas_spent
    (block_of 6 0 138 136 42000) chain rs2 = Ok tt.
Proof.
  apply (proj2 (validate_ok_iff bits bits root gas_spent chain
                  (block_of 6 0 138 136 42000) rs2)).
  split; [intros _; split; vm_compute; reflexivity|reflexivity].
Defined.

Lemma validate_error_values_differ_witness :
  validate_block_post_execution bits bits root gas_spent
    (block_of 3 0 0 0 42001) chain rs2 =
  Err (BlockGasUsed {| got := 42000%N; expected := 42001%N |} (gas_spent rs2)) /\
  42000%N <> 42001%N.
Proof.
  assert (H : validate_block_post_execution bits bits root gas_spent
                (block_of 3 0 0 0 42001) chain rs2 =
              Err (BlockGasUsed {| got := 42000%N; expected := 42001%N |} (gas_spent rs2)))
    by (vm_compute; reflexivity).
  split; [exact H|].
  exact (validate_error_values_differ bits bits root gas_spent chain
           (block_of 3 0 0 0 42001) rs2 _ H).
Defined.

Lemma gas_error_after_receipts_check_witness :
  validate_block_post_execution bits bits root gas_spent
    (block_of 6 0 138 136 1) chain rs2 =
  Err (BlockGasUsed {| got := 42000%N; expected := 1%N |} [(0, 21000); (1, 42000)]%N) /\
  verify_receipts bits bits root 138 136 rs2 chain 0 = Ok tt.
Proof.
  assert (H : validate_block_post_execution bits bits root gas_spent
                (block_of 6 0 138 136 1) chain rs2 =
              Err (BlockGasUsed {| got := 42000%N; expected := 1%N |}
                     [(0, 21000); (1, 42000)]%N))
    by (vm_compute; reflexivity).
  split; [exact H|].
  exact (proj1 (gas_error_after_receipts_check bits bits root gas_spent chain
                  (block_of 6 0 138 136 1) rs2 _ _ H) eq_refl).
Defined.

Lemma fold_logs_bloom_bounded_witness :
  (forall r, In r (map (into_receipt_with_bloom bits bits) rs2) ->
             (0 <= bloom r < 2 ^ 2048)%Z) /\
  (0 <= fold_logs_bloom (map (into_receipt_with_bloom bits bits) rs2) < 2 ^ 2048)%Z.
Proof.
  assert (H : forall r, In r (map (into_receipt_with_bloom bits bits) rs2) ->
                        (0 <= bloom r < 2 ^ 2048)%Z).
  { intros r Hr. simpl in Hr. destruct Hr as [<-|[<-|[]]];
      (split; [vm_compute; discriminate|vm_compute; reflexivity]). }
  split; [exact H|].
  exact (fold_logs_bloom_bounded (map (into_receipt_with_bloom bits bits) rs2) H).
Defined.
